(** * Sign-in with SRP, auth route handler factory and default configuration

    A shallow embedding of three entry points of the client SDK:

    - [signInWithSRP]  (auth/providers/cognito/apis/signInWithSRP.ts),
    - [createAuthRouteHandlersFactory]
      (adapter-nextjs/src/auth/createAuthRouteHandlersFactory.ts),
    - [DefaultAmplify.configure]  (aws-amplify/src/initSingleton.ts).

    JavaScript values that may be [undefined] are options; exceptions are
    an explicit outcome; the process-wide sign-in store and the calls that
    leave the process are threaded through a small state-and-exception
    monad that also keeps a log of the effects, in program order. *)

From Stdlib Require Import String List Bool PeanoNat.
Import ListNotations.
Open Scope string_scope.
Open Scope list_scope.

Set Implicit Arguments.

(** ** JavaScript truthiness of the values that occur *)

(** A value of type [string | undefined]: falsy when [undefined] or [''] . *)
Definition truthy (v : option string) : bool :=
  match v with
  | Some s => negb (String.eqb s "")
  | None => false
  end.

(** [a || b] on values whose only falsy inhabitant is [undefined]
    (objects). *)
Definition or_else {A : Type} (a b : option A) : option A :=
  match a with
  | Some x => Some x
  | None => b
  end.

(** Optional chaining [o?.f]. *)
Definition opt_chain {A B : Type} (o : option A) (f : A -> option B) : option B :=
  match o with
  | Some x => f x
  | None => None
  end.

(** ** Data of the sign-in flow *)

Module Auth.

(** [Record<string, string>]. *)
Definition ClientMetadata := list (string * string).
Definition ChallengeParameters := list (string * string).

Record ServiceOptions := {
  clientMetadata : option ClientMetadata
}.

Record SignInOptions := {
  serviceOptions : option ServiceOptions
}.

Record SignInRequest := {
  req_username : option string;
  req_password : option string;
  req_options : option SignInOptions
}.

(** [Amplify.config], as far as [signInWithSRP] reads it. *)
Record AmplifyConfig := {
  config_clientMetadata : option ClientMetadata
}.

Inductive AuthValidationErrorCode :=
  | EmptySignInUsername
  | EmptySignInPassword.

(** What a [throw] can carry. [name] is the [error.name] that the catch
    block hands to the classifier. *)
Inductive AuthError :=
  | ValidationError (code : AuthValidationErrorCode)
  | ServiceError (name : string)
  | UnrecognizedChallengeError (challenge : option string)
  | OtherError (name : string).

Definition validation_name (c : AuthValidationErrorCode) : string :=
  match c with
  | EmptySignInUsername => "EmptySignInUsername"
  | EmptySignInPassword => "EmptySignInPassword"
  end.

Definition error_name (e : AuthError) : string :=
  match e with
  | ValidationError c => validation_name c
  | ServiceError n => n
  | UnrecognizedChallengeError _ => "UnrecognizedChallengeError"
  | OtherError n => n
  end.

(** The challenge kinds a stored session can be waiting on. *)
Inductive Challenge :=
  | PasswordVerifier
  | CustomChallenge
  | MfaCode
  | NewPasswordRequired.

(** [AuthSignInStep]: [DONE], one step per challenge kind, and the steps
    the error classifier can ask for. *)
Inductive AuthSignInStep :=
  | DONE
  | CONFIRM (c : Challenge)
  | RECOVER (what : string).

Record NextStep := {
  signInStep : AuthSignInStep;
  additionalInfo : option ChallengeParameters
}.

Record AuthSignInResult := {
  isSignedIn : bool;
  nextStep : NextStep
}.

(** The fields [signInWithSRP] destructures from the answer of
    [handleUserSRPAuthFlow]. *)
Record AuthResponse := {
  ChallengeName : option string;
  ChallengeParams : option ChallengeParameters;
  AuthenticationResult : option string;
  Session : option string
}.

(** The argument of [setActiveSignInState]. *)
Record SignInState := {
  signInSession : option string;
  username : option string;
  challengeName : option string
}.

(** ** Effects *)

Inductive Outcome (A : Type) :=
  | Returns (a : A)
  | Throws (e : AuthError).
Arguments Throws {A} e.

(** How a helper whose result is handed back without [await] reports a
    failure: by a [throw] in the call itself, or by a promise that is
    rejected once the caller's [try] block has been left. *)
Inductive Delivery :=
  | Thrown
  | Rejected.

(** One entry per call that [signInWithSRP] makes to the remote flow, to
    the session store or to the error classifier, in program order. *)
Inductive Event :=
  | EvRemote (u p : option string) (md : option ClientMetadata)
  | EvSet (s : SignInState)
  | EvClean
  | EvClassify (name : string).

Record World := {
  store : option SignInState;
  log : list Event
}.

Definition M (A : Type) := World -> Outcome A * World.

Definition ret {A} (a : A) : M A := fun w => (Returns a, w).

Definition throw {A} (e : AuthError) : M A := fun w => (Throws e, w).

Definition bind {A B} (m : M A) (k : A -> M B) : M B :=
  fun w =>
    match m w with
    | (Returns a, w') => k a w'
    | (Throws e, w') => (Throws e, w')
    end.

Definition try_catch {A} (body : M A) (handler : AuthError -> M A) : M A :=
  fun w =>
    match body w with
    | (Returns a, w') => (Returns a, w')
    | (Throws e, w') => handler e w'
    end.

Definition lift {A} (o : Outcome A) : M A := fun w => (o, w).

Definition emit (ev : Event) : M unit :=
  fun w => (Returns tt, {| store := store w; log := log w ++ [ev] |}).

Definition put_store (st : option SignInState) : M unit :=
  fun w => (Returns tt, {| store := st; log := log w |}).

End Auth.

Import Auth.

Declare Scope auth_scope.
Delimit Scope auth_scope with auth.
Notation "x <- m ;; k" := (bind m (fun x => k))
  (at level 61, m at next level, right associativity) : auth_scope.
Notation "m ;;; k" := (bind m (fun _ => k))
  (at level 61, right associativity) : auth_scope.
Open Scope auth_scope.

(** ** Helpers of the sign-in flow that live outside the file *)

(** Modelled from the spec: [assertValidationError] (errors/utils) is not
    among the sources. "Empty username or password fails validation with
    a distinct error per field"; "validation errors are raised
    immediately, synchronously, with no session mutation": a failed
    assertion throws the error of the given code and does nothing else. *)
Definition assertValidationError (assertion : bool)
    (name : AuthValidationErrorCode) : M unit :=
  if assertion then ret tt else throw (ValidationError name).

(** Modelled from the spec: [setActiveSignInState] (utils/signInStore) is
    not among the sources. The Session State Store "holds the in-progress
    sign-in session (opaque continuation token, username, current
    challenge)" and is "overwritten on each new sign-in start": the one
    slot takes the given state whole. *)
Definition setActiveSignInState (s : SignInState) : M unit :=
  bind (emit (EvSet s)) (fun _ => put_store (Some s)).

(** Modelled from the spec: [cleanActiveSignInState] (utils/signInStore)
    is not among the sources. The store is "cleared on terminal success or
    failure". *)
Definition cleanActiveSignInState : M unit :=
  bind (emit EvClean) (fun _ => put_store None).

Section SignIn.

(** The dispatcher's table of challenge names and the fields of the
    challenge parameters that each kind keeps: both belong to
    utils/signInHelpers, outside the sources. *)
Variable recognize : string -> option Challenge.
Variable relevant : Challenge -> string -> bool.

(** [getSignInResultFromError] (utils/signInHelpers): a table from error
    names to results; [None] is its [undefined]. [classify] below is the
    call to it, entered in the log. *)
Variable getSignInResultFromError : string -> option AuthSignInResult.

(** [assertServiceError] (errors/utils): [None] when the assertion
    passes, [Some e'] when it throws [e'] instead. *)
Variable assertServiceError_check : AuthError -> option AuthError.

(** How [getSignInResult] reports an unknown challenge. *)
Variable delivery : Delivery.

(** The remote exchange [handleUserSRPAuthFlow]: the network boundary. *)
Definition RemoteFlow :=
  option string -> option string -> option ClientMetadata -> Outcome AuthResponse.

Definition handleUserSRPAuthFlow (remote : RemoteFlow)
    (u p : option string) (md : option ClientMetadata) : M AuthResponse :=
  emit (EvRemote u p md) ;;; lift (remote u p md).

Definition filter_parameters (c : Challenge)
    (ps : option ChallengeParameters) : option ChallengeParameters :=
  option_map (filter (fun kv => relevant c (fst kv))) ps.

(** Modelled from the spec: [getSignInResult] (utils/signInHelpers) is not
    among the sources. "named challenge present => {isSignedIn:false,
    nextStep:<that challenge, with parameters filtered to only the fields
    relevant to that challenge kind>}. Unknown challenge names from the
    remote service must fail closed (surfaced as an error, not silently
    ignored)". How the error reaches the caller, thrown by the call or as
    a rejected promise, is not said: [delivery] stands for either. *)
Definition getSignInResult (name : option string)
    (ps : option ChallengeParameters) : Outcome AuthSignInResult :=
  match opt_chain name recognize with
  | Some c =>
      Returns {| isSignedIn := false;
                 nextStep := {| signInStep := CONFIRM c;
                                additionalInfo := filter_parameters c ps |} |}
  | None => Throws (UnrecognizedChallengeError name)
  end.

Definition assertServiceError (e : AuthError) : M unit :=
  match assertServiceError_check e with
  | None => ret tt
  | Some e' => throw e'
  end.

Definition classify (name : string) : M (option AuthSignInResult) :=
  emit (EvClassify name) ;;; ret (getSignInResultFromError name).

(** [return getSignInResult(...)]: the call is made inside the [try]
    block and what it gives is returned without [await]. An error thrown
    by the call itself is thrown here, inside the block; otherwise the
    value is the helper's promise, which settles only after the block has
    been left, so a rejection does not reach the [catch]. *)
Definition return_getSignInResult (name : option string)
    (ps : option ChallengeParameters) : M (Outcome AuthSignInResult) :=
  match getSignInResult name ps with
  | Returns r => ret (Returns r)
  | Throws e =>
      match delivery with
      | Thrown => throw e
      | Rejected => ret (Throws e)
      end
  end.

Definition done_result : AuthSignInResult :=
  {| isSignedIn := true;
     nextStep := {| signInStep := DONE; additionalInfo := None |} |}.

(** The client metadata of a call: the per-call value, or else the
    configured one. *)
Definition resolve_clientMetaData (config : AmplifyConfig)
    (signInRequest : SignInRequest) : option ClientMetadata :=
  or_else
    (opt_chain (opt_chain (req_options signInRequest) serviceOptions)
               clientMetadata)
    (config_clientMetadata config).

(** [signInWithSRP], statement by statement. The [try] block yields what
    the function returns: a result, or the promise of the helper that was
    not awaited; the caller sees that promise settled. *)
Definition signInWithSRP (config : AmplifyConfig) (remote : RemoteFlow)
    (signInRequest : SignInRequest) : M AuthSignInResult :=
  let username := req_username signInRequest in
  let password := req_password signInRequest in
  let clientMetaData := resolve_clientMetaData config signInRequest in
  assertValidationError (truthy username) EmptySignInUsername ;;;
  assertValidationError (truthy password) EmptySignInPassword ;;;
  returned <-
    try_catch
      (response <- handleUserSRPAuthFlow remote username password clientMetaData ;;
       setActiveSignInState
         {| signInSession := Session response;
            username := username;
            challengeName := ChallengeName response |} ;;;
       match AuthenticationResult response with
       | Some _ =>
           cleanActiveSignInState ;;;
           ret (Returns done_result)
       | None =>
           return_getSignInResult (ChallengeName response)
                                  (ChallengeParams response)
       end)
      (fun error =>
       cleanActiveSignInState ;;;
       assertServiceError error ;;;
       result <- classify (error_name error) ;;
       match result with
       | Some r => ret (Returns r)
       | None => throw error
       end) ;;
  lift returned.

(** The field that a validation error code is about. *)
Definition field_of (code : AuthValidationErrorCode)
    (r : SignInRequest) : option string :=
  match code with
  | EmptySignInUsername => req_username r
  | EmptySignInPassword => req_password r
  end.

(** *** Successive calls on one client instance *)

Record Call := {
  call_config : AmplifyConfig;
  call_remote : RemoteFlow;
  call_request : SignInRequest
}.

Definition run_call (c : Call) (w : World) : Outcome AuthSignInResult * World :=
  signInWithSRP (call_config c) (call_remote c) (call_request c) w.




(** The remote calls of a log, in order. *)
Definition is_remote (ev : Event) : bool :=
  match ev with
  | EvRemote _ _ _ => true
  | _ => false
  end.

Definition remote_calls (l : list Event) : list Event := filter is_remote l.

(** The store mutations of a log, in order. *)
Definition is_mutation (ev : Event) : bool :=
  match ev with
  | EvSet _ | EvClean => true
  | _ => false
  end.

End SignIn.

(** ** A mocked service and dispatcher tables, for concrete runs *)

Module Mock.

Definition recognize (name : string) : option Challenge :=
  if String.eqb name "PasswordVerifier" then Some PasswordVerifier
  else if String.eqb name "CustomChallenge" then Some CustomChallenge
  else if String.eqb name "MfaCode" then Some MfaCode
  else if String.eqb name "NewPasswordRequired" then Some NewPasswordRequired
  else None.

Definition relevant (c : Challenge) (key : string) : bool :=
  match c with
  | MfaCode => String.eqb key "deliveryDestination"
  | PasswordVerifier => String.eqb key "salt" || String.eqb key "serverPublicValue"
  | _ => true
  end.

Definition reset_password : AuthSignInResult :=
  {| isSignedIn := false;
     nextStep := {| signInStep := RECOVER "ResetPassword";
                    additionalInfo := None |} |}.

Definition getSignInResultFromError (name : string) : option AuthSignInResult :=
  if String.eqb name "PasswordResetRequired" then Some reset_password
  else None.

Definition assertServiceError_check (e : AuthError) : option AuthError :=
  match e with
  | OtherError _ => Some (OtherError "Unknown")
  | _ => None
  end.

(** The dispatcher is an [async] function: it fails by rejection. *)
Definition delivery : Delivery := Rejected.

Definition config : AmplifyConfig :=
  {| config_clientMetadata := Some [("app", "demo")] |}.

(** Tokens for "alice", an MFA challenge for "bob", an unknown challenge
    for "carol", a password reset for "dave", a plain refusal otherwise. *)
Definition remote : RemoteFlow :=
  fun u _ _ =>
    match u with
    | Some "alice" =>
        Returns {| ChallengeName := None; ChallengeParams := None;
                   AuthenticationResult := Some "tokens"; Session := None |}
    | Some "bob" =>
        Returns {| ChallengeName := Some "MfaCode";
                   ChallengeParams := Some [("deliveryDestination", "+1***");
                                            ("internal", "x")];
                   AuthenticationResult := None; Session := Some "session-1" |}
    | Some "carol" =>
        Returns {| ChallengeName := Some "HardwareKey"; ChallengeParams := None;
                   AuthenticationResult := None; Session := Some "session-2" |}
    | Some "dave" => Throws (ServiceError "PasswordResetRequired")
    | _ => Throws (ServiceError "NotAuthorized")
    end.

Definition request (u p : string) : SignInRequest :=
  {| req_username := Some u; req_password := Some p; req_options := None |}.

Definition signIn : SignInRequest -> M AuthSignInResult :=
  signInWithSRP recognize relevant getSignInResultFromError
                assertServiceError_check delivery config remote.

Definition fresh : World := {| store := None; log := [] |}.

(** A second exchange on the same client: a custom challenge for
    whoever asks. *)
Definition second_remote : RemoteFlow :=
  fun _ _ _ =>
    Returns {| ChallengeName := Some "CustomChallenge"; ChallengeParams := None;
               AuthenticationResult := None; Session := Some "session-9" |}.

Definition call_of (rm : RemoteFlow) (u p : string) : Call :=
  {| call_config := config; call_remote := rm; call_request := request u p |}.

Definition run : Call -> World -> Outcome AuthSignInResult * World :=
  run_call recognize relevant getSignInResultFromError assertServiceError_check delivery.

End Mock.

(** ** The auth route handler factory of the Next.js adapter *)

Module Nextjs.

Record OAuthConfig := {
  oauth_domain : string
}.

Record LoginWith := {
  oauth : option OAuthConfig
}.

Record CognitoConfig := {
  userPoolClientId : string;
  loginWith : option LoginWith
}.

Record AuthConfig := {
  Cognito : option CognitoConfig
}.

Record ResourcesConfig := {
  Auth : option AuthConfig
}.

Definition CookieOptions := list (string * string).

Record RuntimeOptions := {
  cookies : option CookieOptions
}.

Record CreateAuthRouteHandlersFactoryInput := {
  config : ResourcesConfig;
  runtimeOptions : option RuntimeOptions
}.

Inductive FactoryError :=
  | AmplifyServerContextError (message recoverySuggestion : string)
  | AssertionError (name : string)
  | TypeError
  | PlainError (message : string).

(** What the returned closure has captured. *)
Record Handlers := {
  h_userPoolClientId : string;
  h_oAuthConfig : option OAuthConfig;
  h_setCookieOptions : CookieOptions;
  h_origin : string
}.

Inductive Built :=
  | Created (h : Handlers)
  | Raised (e : FactoryError).

Definition origin_not_found : FactoryError :=
  AmplifyServerContextError
    "Could not find the AMPLIFY_APP_ORIGIN environment variable."
    "Add the AMPLIFY_APP_ORIGIN environment variable to the `.env` file of your Next.js project.".

Definition origin_invalid : FactoryError :=
  AmplifyServerContextError
    "AMPLIFY_APP_ORIGIN environment variable contains an invalid origin string."
    "Ensure the AMPLIFY_APP_ORIGIN environment variable is a valid origin string.".

Definition is_server_context_error (b : Built) : bool :=
  match b with
  | Raised (AmplifyServerContextError _ _) => true
  | _ => false
  end.

Section Factory.

(** [isValidOrigin] (./utils) and the two configuration assertions of the
    core package are outside the sources: [None] is an assertion that
    passes, [Some e] one that throws [e]. *)
Variable isValidOrigin : string -> bool.
Variable assertTokenProviderConfig : option CognitoConfig -> option FactoryError.
Variable assertOAuthConfig : option CognitoConfig -> option FactoryError.

(** [env_origin] is [process.env.AMPLIFY_APP_ORIGIN]. *)
Definition createAuthRouteHandlersFactory (env_origin : option string)
    (input : CreateAuthRouteHandlersFactoryInput) : Built :=
  let resourcesConfig := config input in
  let runtimeOptions :=
    match runtimeOptions input with
    | Some o => o
    | None => {| cookies := None |}
    end in
  if negb (truthy env_origin) then Raised origin_not_found
  else
    match env_origin with
    | None => Raised origin_not_found
    | Some origin =>
        if negb (isValidOrigin origin) then Raised origin_invalid
        else
          match assertTokenProviderConfig
                  (opt_chain (Auth resourcesConfig) Cognito) with
          | Some e => Raised e
          | None =>
              (* [resourcesConfig.Auth.Cognito], read without [?.] *)
              match Auth resourcesConfig with
              | None => Raised TypeError
              | Some auth =>
                  match assertOAuthConfig (Cognito auth) with
                  | Some e => Raised e
                  | None =>
                      (* the nested destructuring: [Cognito] and
                         [loginWith] must be objects, [oauth] may be
                         missing and is then bound to [undefined] *)
                      match Cognito auth with
                      | None => Raised TypeError
                      | Some c =>
                          match loginWith c with
                          | None => Raised TypeError
                          | Some lw =>
                              Created
                                {| h_userPoolClientId := userPoolClientId c;
                                   h_oAuthConfig := oauth lw;
                                   h_setCookieOptions :=
                                     match cookies runtimeOptions with
                                     | Some o => o
                                     | None => []
                                     end;
                                   h_origin := origin |}
                          end
                      end
                  end
              end
          end
    end.

End Factory.

(** The two request shapes and what [handleRequest] does with them. *)
Inductive RequestKind := NextApiRequest | NextRequest | UnknownRequest.
Inductive ContextKind := NextApiResponse | AuthRoutesHandlerContext | UnknownContext.

Inductive Handled :=
  | ByPagesRouter (h : Handlers)
  | ByAppRouter (h : Handlers)
  | Rejected (e : FactoryError).

Definition handleRequest (h : Handlers) (request : RequestKind)
    (contextOrResponse : ContextKind) : Handled :=
  match request, contextOrResponse with
  | NextApiRequest, NextApiResponse => ByPagesRouter h
  | NextRequest, AuthRoutesHandlerContext => ByAppRouter h
  | _, _ =>
      Rejected (PlainError
        "Invalid request and context/response combination. The request cannot be handled.")
  end.

(** A validator to run the factory with: https anywhere, http on
    localhost. *)
Definition mock_isValidOrigin (origin : string) : bool :=
  String.prefix "https://" origin || String.prefix "http://localhost" origin.

Definition mock_assert (c : option CognitoConfig) : option FactoryError :=
  match c with
  | Some _ => None
  | None => Some (AssertionError "AuthTokenConfigException")
  end.

Definition mock_input : CreateAuthRouteHandlersFactoryInput :=
  {| config :=
       {| Auth := Some {| Cognito := Some
            {| userPoolClientId := "client-1";
               loginWith := Some {| oauth := Some {| oauth_domain := "auth.example.com" |} |} |} |} |};
     runtimeOptions := None |}.

End Nextjs.

(** ** The default configuration entry point *)

Module Singleton.

Inductive KeyValueStorage :=
  | CookieStorage_lax       (* new CookieStorage({ sameSite: 'lax' }) *)
  | defaultStorage.

Inductive TokenProvider :=
  | cognitoUserPoolsTokenProvider
  | CustomTokenProvider (id : string).

Inductive CredentialsProvider :=
  | cognitoCredentialsProvider
  | CognitoAWSCredentialsAndIdentityIdProvider (identityIdStore : KeyValueStorage)
  | CustomCredentialsProvider (id : string).

Record AuthLibraryOptions := {
  tokenProvider : option TokenProvider;
  credentialsProvider : option CredentialsProvider
}.

(** A key of an object literal: left out, written with the value
    [undefined], or written with a value. Reading the key does not tell
    the first two apart; spreading the object does. *)
Inductive Key (A : Type) :=
  | Missing
  | Undefined
  | Defined (a : A).
Arguments Missing {A}.
Arguments Undefined {A}.

Definition key_value {A : Type} (k : Key A) : option A :=
  match k with
  | Defined a => Some a
  | _ => None
  end.

(** [LibraryOptions]: [Auth], [ssr], and the remaining keys as they come. *)
Record LibraryOptions := {
  lo_Auth_key : Key AuthLibraryOptions;
  ssr : option bool;
  lo_rest : list (string * string)
}.

(** [libraryOptions.Auth]. *)
Definition lo_Auth (lo : LibraryOptions) : option AuthLibraryOptions :=
  key_value (lo_Auth_key lo).

Record ResourcesConfig := {
  Auth : option string;
  rc_rest : list (string * string)
}.

(** The singleton [Amplify] and the module-level token provider, as far
    as [configure] reads and writes them. The core [Amplify.configure] is
    outside the sources: each call to it is recorded with its arguments. *)
Record AmplifyState := {
  libraryOptions : LibraryOptions;
  tp_authConfig : option string;
  tp_keyValueStorage : option KeyValueStorage;
  configure_calls : list (ResourcesConfig * option LibraryOptions)
}.

Definition Amplify_configure (cfg : ResourcesConfig)
    (lo : option LibraryOptions) (a : AmplifyState) : AmplifyState :=
  {| libraryOptions := libraryOptions a;
     tp_authConfig := tp_authConfig a;
     tp_keyValueStorage := tp_keyValueStorage a;
     configure_calls := configure_calls a ++ [(cfg, lo)] |}.

Definition setAuthConfig (c : string) (a : AmplifyState) : AmplifyState :=
  {| libraryOptions := libraryOptions a;
     tp_authConfig := Some c;
     tp_keyValueStorage := tp_keyValueStorage a;
     configure_calls := configure_calls a |}.

Definition setKeyValueStorage (k : KeyValueStorage) (a : AmplifyState) : AmplifyState :=
  {| libraryOptions := libraryOptions a;
     tp_authConfig := tp_authConfig a;
     tp_keyValueStorage := Some k;
     configure_calls := configure_calls a |}.

(** [authLibraryOptions.credentialsProvider = p], where
    [authLibraryOptions] is the object [Amplify.libraryOptions.Auth]: the
    assignment is seen through the singleton too. *)
Definition assign_credentialsProvider (p : CredentialsProvider)
    (auth : AuthLibraryOptions) : AuthLibraryOptions :=
  {| tokenProvider := tokenProvider auth; credentialsProvider := Some p |}.

Definition set_configured_Auth (auth : AuthLibraryOptions)
    (a : AmplifyState) : AmplifyState :=
  {| libraryOptions :=
       {| lo_Auth_key := Defined auth;
          ssr := ssr (libraryOptions a);
          lo_rest := lo_rest (libraryOptions a) |};
     tp_authConfig := tp_authConfig a;
     tp_keyValueStorage := tp_keyValueStorage a;
     configure_calls := configure_calls a |}.

(** [{ ...libraryOptions, Auth: auth }]. *)
Definition spread_then_Auth (lo : option LibraryOptions)
    (auth : AuthLibraryOptions) : LibraryOptions :=
  {| lo_Auth_key := Defined auth;
     ssr := opt_chain lo ssr;
     lo_rest := match lo with Some l => lo_rest l | None => [] end |}.

(** [{ Auth: auth, ...libraryOptions }]: an [Auth] key that
    [libraryOptions] has of its own, be it with the value [undefined],
    is copied over the one written first. *)
Definition Auth_then_spread (auth : AuthLibraryOptions)
    (lo : LibraryOptions) : LibraryOptions :=
  {| lo_Auth_key :=
       match lo_Auth_key lo with
       | Missing => Defined auth
       | own => own
       end;
     ssr := ssr lo;
     lo_rest := lo_rest lo |}.

Definition is_true (b : option bool) : bool :=
  match b with
  | Some true => true
  | _ => false
  end.

Definition resolvedKeyValueStorage (lo : option LibraryOptions) : KeyValueStorage :=
  if is_true (opt_chain lo ssr) then CookieStorage_lax else defaultStorage.

Definition resolvedCredentialsProvider (lo : option LibraryOptions) : CredentialsProvider :=
  if is_true (opt_chain lo ssr)
  then CognitoAWSCredentialsAndIdentityIdProvider CookieStorage_lax
  else cognitoCredentialsProvider.

Definition default_providers (lo : option LibraryOptions) : AuthLibraryOptions :=
  {| tokenProvider := Some cognitoUserPoolsTokenProvider;
     credentialsProvider := Some (resolvedCredentialsProvider lo) |}.

Section Configure.

Variable RawConfig : Type.
Variable parseAmplifyConfig : RawConfig -> ResourcesConfig.

(** [DefaultAmplify.configure], branch by branch. *)
Definition configure (resourceConfig : RawConfig)
    (libOpts : option LibraryOptions) (a : AmplifyState) : AmplifyState :=
  let resolvedResourceConfig := parseAmplifyConfig resourceConfig in
  match Auth resolvedResourceConfig with
  | None => Amplify_configure resolvedResourceConfig libOpts a
  | Some authConfig =>
      match opt_chain libOpts lo_Auth with
      | Some _ => Amplify_configure resolvedResourceConfig libOpts a
      | None =>
          match lo_Auth (libraryOptions a) with
          | None =>
              let a1 := setAuthConfig authConfig a in
              let a2 := setKeyValueStorage (resolvedKeyValueStorage libOpts) a1 in
              Amplify_configure resolvedResourceConfig
                (Some (spread_then_Auth libOpts (default_providers libOpts))) a2
          | Some authLibraryOptions =>
              match libOpts with
              | Some lo =>
                  match ssr lo with
                  | Some _ =>
                      let a1 :=
                        setKeyValueStorage (resolvedKeyValueStorage libOpts) a in
                      let authLibraryOptions' :=
                        assign_credentialsProvider
                          (resolvedCredentialsProvider libOpts)
                          authLibraryOptions in
                      let a2 := set_configured_Auth authLibraryOptions' a1 in
                      Amplify_configure resolvedResourceConfig
                        (Some (Auth_then_spread authLibraryOptions' lo)) a2
                  | None =>
                      Amplify_configure resolvedResourceConfig
                        (Some (Auth_then_spread authLibraryOptions lo)) a
                  end
              | None => Amplify_configure resolvedResourceConfig None a
              end
          end
      end
  end.

(** The three conditions under which the defaults are installed. *)
Definition three_conditions (cfg : ResourcesConfig)
    (libOpts : option LibraryOptions) (a : AmplifyState) : bool :=
  match Auth cfg, opt_chain libOpts lo_Auth, lo_Auth (libraryOptions a) with
  | Some _, None, None => true
  | _, _, _ => false
  end.

End Configure.

Definition is_default_credentials (p : option CredentialsProvider) : bool :=
  match p with
  | Some cognitoCredentialsProvider => true
  | Some (CognitoAWSCredentialsAndIdentityIdProvider _) => true
  | _ => false
  end.

(** A run in which custom providers were configured earlier and the
    caller now only switches [ssr] on. *)
Definition custom_auth : AuthLibraryOptions :=
  {| tokenProvider := Some (CustomTokenProvider "my-tokens");
     credentialsProvider := Some (CustomCredentialsProvider "my-credentials") |}.

Definition configured_before : AmplifyState :=
  {| libraryOptions :=
       {| lo_Auth_key := Defined custom_auth; ssr := None; lo_rest := [] |};
     tp_authConfig := None;
     tp_keyValueStorage := None;
     configure_calls := [] |}.

Definition never_configured : AmplifyState :=
  {| libraryOptions :=
       {| lo_Auth_key := Missing; ssr := None; lo_rest := [] |};
     tp_authConfig := None;
     tp_keyValueStorage := None;
     configure_calls := [] |}.

Definition auth_config : ResourcesConfig :=
  {| Auth := Some "user-pool"; rc_rest := [] |}.

Definition only_ssr : LibraryOptions :=
  {| lo_Auth_key := Missing; ssr := Some true; lo_rest := [] |}.


Definition parse_id (c : ResourcesConfig) : ResourcesConfig := c.

End Singleton.


(** ** Runs of several calls *)

Section Runs.

Variable recognize : string -> option Challenge.
Variable relevant : Challenge -> string -> bool.
Variable getSignInResultFromError : string -> option AuthSignInResult.
Variable assertServiceError_check : AuthError -> option AuthError.
Variable delivery : Delivery.

(** The calls of a list, one after the other on the same client. *)
Fixpoint run_calls (cs : list Call) (w : World) : World :=
  match cs with
  | [] => w
  | c :: rest =>
      run_calls rest
        (snd (run_call recognize relevant getSignInResultFromError
                       assertServiceError_check delivery c w))
  end.

(** Both assertions of [signInWithSRP] pass. *)
Definition passes_validation (c : Call) : bool :=
  truthy (req_username (call_request c)) && truthy (req_password (call_request c)).

End Runs.

Module MockRuns.

(** A remote flow that breaks down with a plain [Error] whose name the
    classifier of [Mock] would know. *)
Definition broken_remote : RemoteFlow :=
  fun _ _ _ => Throws (OtherError "PasswordResetRequired").


Definition run_calls : list Call -> World -> World :=
  run_calls Mock.recognize Mock.relevant Mock.getSignInResultFromError
            Mock.assertServiceError_check Mock.delivery.

Definition three_calls : list Call :=
  [Mock.call_of Mock.remote "bob" "pw";
   Mock.call_of Mock.remote "" "pw";
   Mock.call_of Mock.second_remote "erin" "pw2"].

End MockRuns.

(** * Properties of [signInWithSRP] *)

Section SignInFacts.

Variable recognize : string -> option Challenge.
Variable relevant : Challenge -> string -> bool.
Variable getSignInResultFromError : string -> option AuthSignInResult.
Variable assertServiceError_check : AuthError -> option AuthError.
Variable delivery : Delivery.

Local Abbreviation signIn :=
  (signInWithSRP recognize relevant getSignInResultFromError
                 assertServiceError_check delivery).

Ltac unfold_flow :=
  unfold signInWithSRP, assertValidationError, handleUserSRPAuthFlow,
    setActiveSignInState, cleanActiveSignInState, assertServiceError,
    return_getSignInResult, classify, try_catch, bind, ret, throw, lift,
    emit, put_store.

Ltac run_flow := unfold_flow; cbn.

Lemma log_snoc2 (l : list Event) (a b : Event) :
  (l ++ [a]) ++ [b] = l ++ [a; b].
Proof. now rewrite <- app_assoc. Qed.

Lemma log_snoc3 (l : list Event) (a b c : Event) :
  ((l ++ [a]) ++ [b]) ++ [c] = l ++ [a; b; c].
Proof. now rewrite <- !app_assoc. Qed.

Lemma log_snoc4 (l : list Event) (a b c d : Event) :
  (((l ++ [a]) ++ [b]) ++ [c]) ++ [d] = l ++ [a; b; c; d].
Proof. now rewrite <- !app_assoc. Qed.

(** C1. A call whose username or password is falsy fails with the
    validation error of a field that is indeed empty (the username's when
    the username is empty, the password's when only the password is), and
    it leaves the world as it found it: nothing is added to the log, so no
    remote call was made, and the session store is untouched. *)
Theorem signIn_rejects_empty_credentials :
  forall config remote (r : SignInRequest) (w : World),
    truthy (req_username r) = false \/ truthy (req_password r) = false ->
    exists code,
      signIn config remote r w = (Throws (ValidationError code), w)
      /\ truthy (field_of code r) = false
      /\ (truthy (req_username r) = false -> code = EmptySignInUsername)
      /\ (truthy (req_username r) = true -> code = EmptySignInPassword).
Proof.
  intros config remote r w H.
  destruct (truthy (req_username r)) eqn:Hu.
  - destruct H as [H | Hp]; [discriminate|].
    exists EmptySignInPassword.
    run_flow. rewrite Hu, Hp. cbn.
    repeat split; auto; intros; discriminate.
  - exists EmptySignInUsername.
    run_flow. rewrite Hu. cbn.
    repeat split; auto; intros; discriminate.
Qed.

(** C2. When the remote flow answers with an [AuthenticationResult], the
    call resolves with [{isSignedIn: true, nextStep: {signInStep: DONE}}];
    the store is empty afterwards whatever it held before, and clearing it
    is the last thing the call did. *)
Theorem signIn_tokens_done_and_cleared :
  forall config remote (r : SignInRequest) (w : World) resp tokens,
    truthy (req_username r) = true ->
    truthy (req_password r) = true ->
    remote (req_username r) (req_password r)
           (resolve_clientMetaData config r) = Returns resp ->
    AuthenticationResult resp = Some tokens ->
    signIn config remote r w =
      (Returns {| isSignedIn := true;
                  nextStep := {| signInStep := DONE; additionalInfo := None |} |},
       {| store := None;
          log := log w ++
                 [EvRemote (req_username r) (req_password r)
                           (resolve_clientMetaData config r);
                  EvSet {| signInSession := Session resp;
                           username := req_username r;
                           challengeName := ChallengeName resp |};
                  EvClean] |}).
Proof.
  intros config remote r w resp tokens Hu Hp Hr Ht.
  run_flow. rewrite Hu, Hp. cbn. rewrite Hr, Ht. cbn.
  now rewrite log_snoc3.
Qed.

(** What a call made with non-empty credentials leaves in the store and
    adds to the log, by the answer of the remote flow. Shared by the
    theorems below. *)
Lemma signIn_valid_run :
  forall config remote (r : SignInRequest) (w : World),
    truthy (req_username r) = true ->
    truthy (req_password r) = true ->
    let u := req_username r in
    let p := req_password r in
    let md := resolve_clientMetaData config r in
    let on_error e l :=
      match assertServiceError_check e with
      | Some e' => (Throws e', {| store := None; log := l ++ [EvClean] |})
      | None =>
          (match getSignInResultFromError (error_name e) with
           | Some res => Returns res
           | None => Throws e
           end,
           {| store := None;
              log := l ++ [EvClean; EvClassify (error_name e)] |})
      end in
    signIn config remote r w =
      match remote u p md with
      | Throws e => on_error e (log w ++ [EvRemote u p md])
      | Returns resp =>
          let s := {| signInSession := Session resp;
                      username := u;
                      challengeName := ChallengeName resp |} in
          match AuthenticationResult resp with
          | Some _ =>
              (Returns done_result,
               {| store := None;
                  log := log w ++ [EvRemote u p md; EvSet s; EvClean] |})
          | None =>
              match getSignInResult recognize relevant
                      (ChallengeName resp) (ChallengeParams resp) with
              | Returns res =>
                  (Returns res,
                   {| store := Some s;
                      log := log w ++ [EvRemote u p md; EvSet s] |})
              | Throws e =>
                  match delivery with
                  | Thrown =>
                      on_error e (log w ++ [EvRemote u p md; EvSet s])
                  | Rejected =>
                      (Throws e,
                       {| store := Some s;
                          log := log w ++ [EvRemote u p md; EvSet s] |})
                  end
              end
          end
      end.
Proof.
  intros config remote r w Hu Hp u p md on_error.
  subst u p md on_error.
  run_flow. rewrite Hu, Hp. cbn.
  destruct (remote _ _ _) as [resp | e]; cbn.
  - destruct (AuthenticationResult resp); cbn.
    + now rewrite log_snoc3.
    + destruct (getSignInResult _ _ _ _) as [res | e]; cbn.
      * now rewrite log_snoc2.
      * destruct delivery; cbn; [|now rewrite log_snoc2].
        destruct (assertServiceError_check e); cbn;
          rewrite <- !app_assoc; cbn; [reflexivity|].
        now destruct (getSignInResultFromError _).
  - destruct (assertServiceError_check e); cbn;
      rewrite <- !app_assoc; cbn; [reflexivity|].
    now destruct (getSignInResultFromError _).
Qed.

Lemma signIn_invalid_run :
  forall config remote (r : SignInRequest) (w : World),
    truthy (req_username r) && truthy (req_password r) = false ->
    snd (signIn config remote r w) = w.
Proof.
  intros config remote r w H. run_flow.
  destruct (truthy (req_username r)); cbn; [|reflexivity].
  cbn in H. now rewrite H.
Qed.

(** C3. When the remote flow throws, the store is emptied first: the
    next entry of the log after the remote call is the clean-up, whatever
    the error is, and the classifier is only consulted after it. For an
    error that [assertServiceError] lets through, a result found by
    [getSignInResultFromError] for the error's name is what the call
    resolves with, and with no such result the very same error is thrown
    again. *)
Theorem signIn_remote_error_cleans_then_classifies :
  forall config remote (r : SignInRequest) (w : World) e,
    truthy (req_username r) = true ->
    truthy (req_password r) = true ->
    remote (req_username r) (req_password r)
           (resolve_clientMetaData config r) = Throws e ->
    let out := signIn config remote r w in
    let called := EvRemote (req_username r) (req_password r)
                           (resolve_clientMetaData config r) in
    store (snd out) = None
    /\ (exists rest, log (snd out) = log w ++ [called; EvClean] ++ rest)
    /\ (assertServiceError_check e = None ->
        log (snd out) = log w ++ [called; EvClean; EvClassify (error_name e)]
        /\ (forall res, getSignInResultFromError (error_name e) = Some res ->
                        fst out = Returns res)
        /\ (getSignInResultFromError (error_name e) = None ->
            fst out = Throws e)).
Proof.
  intros config remote r w e Hu Hp Hr out called. subst out called.
  rewrite (signIn_valid_run config remote r w Hu Hp). cbn zeta.
  rewrite Hr.
  destruct (assertServiceError_check e) as [e' |]; cbn;
    rewrite <- !app_assoc; cbn.
  - split; [reflexivity|]. split.
    + now exists [].
    + discriminate.
  - split; [reflexivity|]. split.
    + now exists [EvClassify (error_name e)].
    + intros _. split; [reflexivity|].
      split.
      * intros res Hres. now rewrite Hres.
      * intros Hnone. now rewrite Hnone.
Qed.

(** C4. A successful answer that names a challenge unknown to the
    dispatcher, when the dispatcher reports it by a rejected promise: the
    call does fail with [UnrecognizedChallengeError], but the promise was
    returned without [await], the [catch] block has not run, and the
    session set just before is still in the store. Had the dispatcher
    thrown in the call itself, the [catch] block would have emptied the
    store. *)
Theorem signIn_unknown_challenge_rejection_keeps_session :
  forall config remote (r : SignInRequest) (w : World) resp n,
    truthy (req_username r) = true ->
    truthy (req_password r) = true ->
    remote (req_username r) (req_password r)
           (resolve_clientMetaData config r) = Returns resp ->
    AuthenticationResult resp = None ->
    ChallengeName resp = Some n ->
    recognize n = None ->
    let out := signIn config remote r w in
    let s := {| signInSession := Session resp;
                username := req_username r;
                challengeName := Some n |} in
    (delivery = Rejected ->
       out = (Throws (UnrecognizedChallengeError (Some n)),
              {| store := Some s;
                 log := log w ++
                        [EvRemote (req_username r) (req_password r)
                                  (resolve_clientMetaData config r);
                         EvSet s] |}))
    /\ (delivery = Thrown -> store (snd out) = None).
Proof.
  intros config remote r w resp n Hu Hp Hr Ht Hn Hrec out s. subst out s.
  rewrite (signIn_valid_run config remote r w Hu Hp). cbn zeta.
  rewrite Hr, Ht. unfold getSignInResult. rewrite Hn. cbn. rewrite Hrec.
  split; intros ->.
  - reflexivity.
  - now destruct (assertServiceError_check _).
Qed.

(** C5. A successful answer without tokens that names a challenge of the
    dispatcher's table leaves exactly the returned [Session], the caller's
    username and the returned challenge name in the store, and the call
    resolves with [isSignedIn] false and the step of that challenge. *)
Theorem signIn_challenge_persists_session :
  forall config remote (r : SignInRequest) (w : World) resp n c,
    truthy (req_username r) = true ->
    truthy (req_password r) = true ->
    remote (req_username r) (req_password r)
           (resolve_clientMetaData config r) = Returns resp ->
    AuthenticationResult resp = None ->
    ChallengeName resp = Some n ->
    recognize n = Some c ->
    let s := {| signInSession := Session resp;
                username := req_username r;
                challengeName := Some n |} in
    signIn config remote r w =
      (Returns {| isSignedIn := false;
                  nextStep :=
                    {| signInStep := CONFIRM c;
                       additionalInfo :=
                         filter_parameters relevant c (ChallengeParams resp) |} |},
       {| store := Some s;
          log := log w ++
                 [EvRemote (req_username r) (req_password r)
                           (resolve_clientMetaData config r);
                  EvSet s] |}).
Proof.
  intros config remote r w resp n c Hu Hp Hr Ht Hn Hrec s. subst s.
  rewrite (signIn_valid_run config remote r w Hu Hp). cbn zeta.
  rewrite Hr, Ht. unfold getSignInResult. rewrite Hn. cbn. now rewrite Hrec.
Qed.

(** The store after a call depends on the call alone when the
    credentials are non-empty: what was stored before plays no part. *)
Lemma signIn_store_after :
  forall config remote (r : SignInRequest) (w : World),
    truthy (req_username r) = true ->
    truthy (req_password r) = true ->
    store (snd (signIn config remote r w)) =
      match remote (req_username r) (req_password r)
                   (resolve_clientMetaData config r) with
      | Throws _ => None
      | Returns resp =>
          let s := {| signInSession := Session resp;
                      username := req_username r;
                      challengeName := ChallengeName resp |} in
          match AuthenticationResult resp with
          | Some _ => None
          | None =>
              match opt_chain (ChallengeName resp) recognize with
              | Some _ => Some s
              | None =>
                  match delivery with
                  | Thrown => None
                  | Rejected => Some s
                  end
              end
          end
      end.
Proof.
  intros config remote r w Hu Hp.
  rewrite (signIn_valid_run config remote r w Hu Hp). cbn zeta.
  destruct (remote _ _ _) as [resp | e].
  - destruct (AuthenticationResult resp); [reflexivity|].
    unfold getSignInResult.
    destruct (opt_chain (ChallengeName resp) recognize); [reflexivity|].
    destruct delivery; [|reflexivity].
    destruct (assertServiceError_check _); reflexivity.
  - destruct (assertServiceError_check e); reflexivity.
Qed.

(** C6. A second sign-in that gets past validation while the first one
    is waiting for its challenge answer replaces the stored session: the
    store then holds nothing, or exactly the session of the second
    exchange, and it is the same store the second call would have left
    had there been no first session at all. The store is one slot, so
    there is never more than one session. *)
Theorem second_signIn_discards_first_session :
  forall (first second : Call) (w0 : World) (s1 : SignInState),
    let run := run_call recognize relevant getSignInResultFromError
                        assertServiceError_check delivery in
    let w1 := snd (run first w0) in
    let w2 := snd (run second w1) in
    store w1 = Some s1 ->
    truthy (req_username (call_request second)) = true ->
    truthy (req_password (call_request second)) = true ->
    store w2 =
      store (snd (run second {| store := None; log := log w1 |}))
    /\ (store w2 = None
        \/ exists resp,
             call_remote second
               (req_username (call_request second))
               (req_password (call_request second))
               (resolve_clientMetaData (call_config second)
                                       (call_request second)) = Returns resp
             /\ store w2 =
                  Some {| signInSession := Session resp;
                          username := req_username (call_request second);
                          challengeName := ChallengeName resp |}).
Proof.
  intros first second w0 s1 run w1 w2 _ Hu Hp.
  subst w2 run. unfold run_call.
  rewrite !(signIn_store_after _ _ _ _ Hu Hp).
  split; [reflexivity|].
  destruct (call_remote second _ _ _) as [resp | e]; [|now left].
  cbn zeta.
  destruct (AuthenticationResult resp); [now left|].
  destruct (opt_chain (ChallengeName resp) recognize).
  - right. now exists resp.
  - destruct delivery; [now left|]. right. now exists resp.
Qed.


(** C8. The remote flow is called at most once per call, exactly when
    both credentials are non-empty, and the client metadata it is given is
    the per-call [options.serviceOptions.clientMetadata] when there is
    one, and the configured [Amplify.config.clientMetadata] otherwise. *)
Theorem signIn_forwards_client_metadata :
  forall config remote (r : SignInRequest) (w : World),
    let per_call :=
      match req_options r with
      | Some o =>
          match serviceOptions o with
          | Some so => clientMetadata so
          | None => None
          end
      | None => None
      end in
    let forwarded :=
      match per_call with
      | Some md => Some md
      | None => config_clientMetadata config
      end in
    remote_calls (log (snd (signIn config remote r w))) =
      remote_calls (log w) ++
      (if truthy (req_username r) && truthy (req_password r)
       then [EvRemote (req_username r) (req_password r) forwarded]
       else []).
Proof.
  intros config remote r w per_call forwarded.
  assert (Hmd : resolve_clientMetaData config r = forwarded).
  { subst forwarded per_call. unfold resolve_clientMetaData, opt_chain, or_else.
    destruct (req_options r) as [o |]; [|reflexivity].
    destruct (serviceOptions o); reflexivity. }
  destruct (truthy (req_username r)) eqn:Hu;
    [destruct (truthy (req_password r)) eqn:Hp|]; cbn [andb].
  - rewrite (signIn_valid_run config remote r w Hu Hp). cbn zeta.
    rewrite Hmd. unfold remote_calls.
    destruct (remote _ _ _) as [resp | e].
    + destruct (AuthenticationResult resp).
      * cbn. now rewrite filter_app.
      * destruct (getSignInResult _ _ _ _) as [res | e]; cbn.
        -- now rewrite filter_app.
        -- destruct delivery; cbn; [|now rewrite filter_app].
           destruct (assertServiceError_check e); cbn;
             rewrite <- ?app_assoc, filter_app; reflexivity.
    + destruct (assertServiceError_check e); cbn;
        rewrite <- ?app_assoc, filter_app; reflexivity.
  - rewrite signIn_invalid_run by (now rewrite Hu, Hp).
    now rewrite app_nil_r.
  - rewrite signIn_invalid_run by (now rewrite Hu).
    now rewrite app_nil_r.
Qed.

End SignInFacts.

(** * Properties of [createAuthRouteHandlersFactory] *)

Section FactoryFacts.

Import Nextjs.

Variable isValidOrigin : string -> bool.
Variable assertTokenProviderConfig : option CognitoConfig -> option FactoryError.
Variable assertOAuthConfig : option CognitoConfig -> option FactoryError.

(** C9, as the code has it. Building the factory fails with an
    [AmplifyServerContextError] before any handler exists: with the
    "could not find" message when [AMPLIFY_APP_ORIGIN] is unset or empty,
    with the other, "invalid origin" message when it is a non-empty string
    that [isValidOrigin] refuses. A factory that is created has captured a
    non-empty, valid origin. *)
Theorem factory_requires_valid_origin :
  forall (env_origin : option string) (input : CreateAuthRouteHandlersFactoryInput),
    let built :=
      createAuthRouteHandlersFactory isValidOrigin assertTokenProviderConfig
                                     assertOAuthConfig env_origin input in
    (env_origin = None \/ env_origin = Some "" -> built = Raised origin_not_found)
    /\ (forall s, env_origin = Some s -> s <> "" -> isValidOrigin s = false ->
          built = Raised origin_invalid)
    /\ (forall h, built = Created h ->
          env_origin = Some (h_origin h)
          /\ h_origin h <> ""
          /\ isValidOrigin (h_origin h) = true)
    /\ is_server_context_error (Raised origin_not_found) = true
    /\ is_server_context_error (Raised origin_invalid) = true
    /\ origin_not_found <> origin_invalid.
Proof.
  intros env_origin input built. subst built.
  unfold createAuthRouteHandlersFactory.
  split; [|split; [|split; [|split; [|split]]]].
  - intros [-> | ->]; reflexivity.
  - intros s -> Hs Hv. cbn.
    destruct (String.eqb_spec s ""); [contradiction|]. cbn.
    now rewrite Hv.
  - intros h.
    destruct env_origin as [s |]; cbn; [|discriminate].
    destruct (String.eqb_spec s ""); cbn; [discriminate|].
    destruct (isValidOrigin s) eqn:Hv; cbn; [|discriminate].
    destruct (assertTokenProviderConfig _); [discriminate|].
    destruct (Auth (config input)) as [auth |]; [|discriminate].
    destruct (assertOAuthConfig _); [discriminate|].
    destruct (Cognito auth) as [c |]; [|discriminate].
    destruct (loginWith c); [|discriminate].
    intros [= <-]. cbn. auto.
  - reflexivity.
  - reflexivity.
  - discriminate.
Qed.

End FactoryFacts.

(** C9, as stated, fails for an origin that is present but empty: the
    validator refuses the empty string, yet the error is the one of the
    missing variable, not the one with the distinct message. *)
Lemma factory_empty_origin_not_reported_invalid :
  Nextjs.mock_isValidOrigin "" = false
  /\ Nextjs.createAuthRouteHandlersFactory Nextjs.mock_isValidOrigin
       Nextjs.mock_assert Nextjs.mock_assert (Some "") Nextjs.mock_input
     = Nextjs.Raised Nextjs.origin_not_found
  /\ Nextjs.createAuthRouteHandlersFactory Nextjs.mock_isValidOrigin
       Nextjs.mock_assert Nextjs.mock_assert (Some "") Nextjs.mock_input
     <> Nextjs.Raised Nextjs.origin_invalid.
Proof.
  repeat split; try reflexivity. discriminate.
Qed.

(** * Properties of [DefaultAmplify.configure] *)

Section ConfigureFacts.

Import Singleton.

Variable RawConfig : Type.
Variable parseAmplifyConfig : RawConfig -> ResourcesConfig.

(** C10, as the code has it. The default token provider and credentials
    provider are installed together when the three conditions hold. With
    no Auth section, or with [libraryOptions.Auth] given, the arguments
    are forwarded untouched; with Auth options configured earlier and no
    [libraryOptions] at all, only the configuration is forwarded. With
    Auth options configured earlier and [libraryOptions] that have no
    [Auth] key, the earlier Auth options are put into what is forwarded:
    their token provider is kept, and their credentials provider is
    replaced by the default one exactly when [ssr] is given. *)
Theorem configure_installs_or_preserves_providers :
  forall (raw : RawConfig) (libOpts : option LibraryOptions) (a : AmplifyState),
    let cfg := parseAmplifyConfig raw in
    let a' := configure parseAmplifyConfig raw libOpts a in
    let default_credentials :=
      match opt_chain libOpts ssr with
      | Some true => CognitoAWSCredentialsAndIdentityIdProvider CookieStorage_lax
      | _ => cognitoCredentialsProvider
      end in
    (three_conditions cfg libOpts a = true ->
       exists fw,
         configure_calls a' = configure_calls a ++ [(cfg, Some fw)]
         /\ lo_Auth fw =
              Some {| tokenProvider := Some cognitoUserPoolsTokenProvider;
                      credentialsProvider := Some default_credentials |}
         /\ ssr fw = opt_chain libOpts ssr
         /\ tp_authConfig a' = Auth cfg)
    /\ (Auth cfg = None \/ opt_chain libOpts lo_Auth <> None ->
          a' = Amplify_configure cfg libOpts a)
    /\ (Auth cfg <> None -> libOpts = None ->
        lo_Auth (libraryOptions a) <> None ->
          a' = Amplify_configure cfg None a)
    /\ (forall lo prev,
          Auth cfg <> None -> libOpts = Some lo -> lo_Auth_key lo = Missing ->
          lo_Auth (libraryOptions a) = Some prev ->
          exists fw auth,
            configure_calls a' = configure_calls a ++ [(cfg, Some fw)]
            /\ lo_Auth fw = Some auth
            /\ tokenProvider auth = tokenProvider prev
            /\ credentialsProvider auth =
                 match ssr lo with
                 | Some _ => Some default_credentials
                 | None => credentialsProvider prev
                 end
            /\ ssr fw = ssr lo
            /\ lo_rest fw = lo_rest lo).
Proof.
  intros raw libOpts a cfg a' default_credentials.
  subst a' default_credentials cfg.
  unfold configure, three_conditions.
  destruct (Auth (parseAmplifyConfig raw)) as [authConfig |] eqn:Hauth.
  - destruct (opt_chain libOpts lo_Auth) as [given |] eqn:Hgiven.
    + repeat split; try discriminate; try reflexivity.
      * intros _ ->. discriminate.
      * intros lo prev _ -> Hlo. cbn in Hgiven. unfold lo_Auth in Hgiven.
        rewrite Hlo in Hgiven. discriminate.
    + destruct (lo_Auth (libraryOptions a)) as [prev |] eqn:Hprev.
      * repeat split; try discriminate.
        -- intros [? | ?]; congruence.
        -- intros _ -> _. reflexivity.
        -- intros lo prev' _ -> Hlo [= <-].
           destruct (ssr lo) as [b |] eqn:Hssr; cbn.
           ++ exists (Auth_then_spread
                        (assign_credentialsProvider
                           (resolvedCredentialsProvider (Some lo)) prev) lo).
              exists (assign_credentialsProvider
                        (resolvedCredentialsProvider (Some lo)) prev).
              unfold Auth_then_spread, resolvedCredentialsProvider, is_true,
                lo_Auth.
              cbn. rewrite Hlo, Hssr. cbn.
              repeat split; auto. now destruct b.
           ++ exists (Auth_then_spread prev lo), prev.
              unfold Auth_then_spread, lo_Auth. cbn. rewrite Hlo. cbn.
              repeat split; auto.
      * repeat split; try congruence.
        -- intros _.
           exists (spread_then_Auth libOpts (default_providers libOpts)).
           unfold default_providers, resolvedCredentialsProvider, is_true.
           cbn. repeat split.
           destruct (opt_chain libOpts ssr) as [[|] |]; reflexivity.
        -- intros [? | ?]; congruence.
  - repeat split; try discriminate; try congruence.
Qed.

End ConfigureFacts.

(** C10, as stated, fails when Auth options were configured earlier and
    the caller only passes [ssr]: the three conditions do not hold, yet
    what is forwarded is not what the caller passed, and its credentials
    provider is the default one in place of the one configured earlier. *)
Lemma configure_ssr_replaces_configured_credentials :
  let a' := Singleton.configure Singleton.parse_id Singleton.auth_config
              (Some Singleton.only_ssr) Singleton.configured_before in
  Singleton.three_conditions Singleton.auth_config (Some Singleton.only_ssr)
    Singleton.configured_before = false
  /\ Singleton.configure_calls a'
     <> [(Singleton.auth_config, Some Singleton.only_ssr)]
  /\ Singleton.configure_calls a'
     = [(Singleton.auth_config,
         Some {| Singleton.lo_Auth_key :=
                   Singleton.Defined {| Singleton.tokenProvider :=
                             Some (Singleton.CustomTokenProvider "my-tokens");
                           Singleton.credentialsProvider :=
                             Some (Singleton.CognitoAWSCredentialsAndIdentityIdProvider
                                     Singleton.CookieStorage_lax) |};
                 Singleton.ssr := Some true;
                 Singleton.lo_rest := [] |})]
  /\ Singleton.is_default_credentials
       (Singleton.credentialsProvider Singleton.custom_auth) = false.
Proof.
  cbv zeta. repeat split; try reflexivity. discriminate.
Qed.

(** * The theorems at work on the mocked service *)

Lemma signIn_rejects_empty_credentials_witness :
  truthy (Some "") = false
  /\ exists code,
       Mock.signIn {| req_username := Some ""; req_password := None;
                      req_options := None |} Mock.fresh
       = (Throws (ValidationError code), Mock.fresh)
       /\ code = EmptySignInUsername.
Proof.
  split; [reflexivity|].
  destruct (signIn_rejects_empty_credentials
              Mock.recognize Mock.relevant Mock.getSignInResultFromError
              Mock.assertServiceError_check Mock.delivery Mock.config Mock.remote
              {| req_username := Some ""; req_password := None;
                 req_options := None |} Mock.fresh
              (or_introl eq_refl)) as [code [Hrun [_ [Hname _]]]].
  exists code. split; [exact Hrun | exact (Hname eq_refl)].
Defined.

Lemma signIn_tokens_done_and_cleared_witness :
  fst (Mock.signIn (Mock.request "alice" "pw")
         {| store := Some {| signInSession := Some "stale";
                             username := Some "zoe";
                             challengeName := Some "MfaCode" |};
            log := [] |})
  = Returns {| isSignedIn := true;
               nextStep := {| signInStep := DONE; additionalInfo := None |} |}.
Proof.
  unfold Mock.signIn.
  rewrite (signIn_tokens_done_and_cleared
             Mock.recognize Mock.relevant Mock.getSignInResultFromError
             Mock.assertServiceError_check Mock.delivery Mock.config Mock.remote
             (Mock.request "alice" "pw") _
             (resp := {| ChallengeName := None; ChallengeParams := None;
                         AuthenticationResult := Some "tokens";
                         Session := None |})
             (tokens := "tokens")
             eq_refl eq_refl eq_refl eq_refl).
  reflexivity.
Defined.

Lemma signIn_remote_error_cleans_then_classifies_witness :
  Mock.remote (Some "dave") (Some "pw") (Some [("app", "demo")])
  = Throws (ServiceError "PasswordResetRequired")
  /\ store (snd (Mock.signIn (Mock.request "dave" "pw") Mock.fresh)) = None
  /\ fst (Mock.signIn (Mock.request "dave" "pw") Mock.fresh)
     = Returns Mock.reset_password.
Proof.
  split; [reflexivity|].
  destruct (signIn_remote_error_cleans_then_classifies
              Mock.recognize Mock.relevant Mock.getSignInResultFromError
              Mock.assertServiceError_check Mock.delivery Mock.config Mock.remote
              (Mock.request "dave" "pw") Mock.fresh
              (e := ServiceError "PasswordResetRequired")
              eq_refl eq_refl eq_refl) as [Hstore [_ Hclass]].
  split; [exact Hstore|].
  destruct (Hclass eq_refl) as [_ [Hres _]].
  exact (Hres Mock.reset_password eq_refl).
Defined.

Lemma signIn_unknown_challenge_rejection_keeps_session_witness :
  Mock.recognize "HardwareKey" = None
  /\ Mock.delivery = Rejected
  /\ fst (Mock.signIn (Mock.request "carol" "pw") Mock.fresh)
     = Throws (UnrecognizedChallengeError (Some "HardwareKey"))
  /\ store (snd (Mock.signIn (Mock.request "carol" "pw") Mock.fresh))
     = Some {| signInSession := Some "session-2";
               username := Some "carol";
               challengeName := Some "HardwareKey" |}.
Proof.
  split; [reflexivity|]. split; [reflexivity|].
  unfold Mock.signIn.
  rewrite (proj1 (signIn_unknown_challenge_rejection_keeps_session
                    Mock.recognize Mock.relevant Mock.getSignInResultFromError
                    Mock.assertServiceError_check Mock.delivery
                    Mock.config Mock.remote
                    (Mock.request "carol" "pw") Mock.fresh
                    (resp := {| ChallengeName := Some "HardwareKey";
                                ChallengeParams := None;
                                AuthenticationResult := None;
                                Session := Some "session-2" |})
                    (n := "HardwareKey")
                    eq_refl eq_refl eq_refl eq_refl eq_refl eq_refl)
                 eq_refl).
  split; reflexivity.
Defined.

Lemma signIn_challenge_persists_session_witness :
  Mock.recognize "MfaCode" = Some MfaCode
  /\ store (snd (Mock.signIn (Mock.request "bob" "pw") Mock.fresh))
     = Some {| signInSession := Some "session-1";
               username := Some "bob";
               challengeName := Some "MfaCode" |}.
Proof.
  split; [reflexivity|].
  unfold Mock.signIn.
  rewrite (signIn_challenge_persists_session
             Mock.recognize Mock.relevant Mock.getSignInResultFromError
             Mock.assertServiceError_check Mock.delivery Mock.config Mock.remote
             (Mock.request "bob" "pw") Mock.fresh
             (resp := {| ChallengeName := Some "MfaCode";
                         ChallengeParams := Some [("deliveryDestination", "+1***");
                                                  ("internal", "x")];
                         AuthenticationResult := None;
                         Session := Some "session-1" |})
             (n := "MfaCode") (c := MfaCode)
             eq_refl eq_refl eq_refl eq_refl eq_refl eq_refl).
  reflexivity.
Defined.

Lemma second_signIn_discards_first_session_witness :
  let w1 := snd (Mock.run (Mock.call_of Mock.remote "bob" "pw") Mock.fresh) in
  let w2 := snd (Mock.run (Mock.call_of Mock.second_remote "erin" "pw2") w1) in
  store w1 = Some {| signInSession := Some "session-1";
                     username := Some "bob";
                     challengeName := Some "MfaCode" |}
  /\ store w2 =
       store (snd (Mock.run (Mock.call_of Mock.second_remote "erin" "pw2")
                            {| store := None; log := log w1 |})).
Proof.
  cbv zeta. split; [reflexivity|].
  exact (proj1 (second_signIn_discards_first_session
                  Mock.recognize Mock.relevant Mock.getSignInResultFromError
                  Mock.assertServiceError_check Mock.delivery
                  (Mock.call_of Mock.remote "bob" "pw")
                  (Mock.call_of Mock.second_remote "erin" "pw2")
                  Mock.fresh
                  (s1 := {| signInSession := Some "session-1";
                            username := Some "bob";
                            challengeName := Some "MfaCode" |})
                  eq_refl eq_refl eq_refl)).
Defined.


Lemma factory_requires_valid_origin_witness :
  Nextjs.mock_isValidOrigin "ftp://files.example.com" = false
  /\ Nextjs.createAuthRouteHandlersFactory Nextjs.mock_isValidOrigin
       Nextjs.mock_assert Nextjs.mock_assert
       (Some "ftp://files.example.com") Nextjs.mock_input
     = Nextjs.Raised Nextjs.origin_invalid.
Proof.
  split; [reflexivity|].
  refine (proj1 (proj2 (factory_requires_valid_origin
                          Nextjs.mock_isValidOrigin Nextjs.mock_assert
                          Nextjs.mock_assert
                          (Some "ftp://files.example.com") Nextjs.mock_input))
                "ftp://files.example.com" eq_refl _ eq_refl).
  discriminate.
Defined.

Lemma configure_installs_or_preserves_providers_witness :
  Singleton.three_conditions Singleton.auth_config None
    Singleton.never_configured = true
  /\ exists fw,
       Singleton.configure_calls
         (Singleton.configure Singleton.parse_id Singleton.auth_config None
            Singleton.never_configured)
       = [(Singleton.auth_config, Some fw)]
       /\ Singleton.lo_Auth fw =
            Some {| Singleton.tokenProvider :=
                      Some Singleton.cognitoUserPoolsTokenProvider;
                    Singleton.credentialsProvider :=
                      Some Singleton.cognitoCredentialsProvider |}.
Proof.
  split; [reflexivity|].
  destruct (proj1 (configure_installs_or_preserves_providers
                     Singleton.parse_id Singleton.auth_config None
                     Singleton.never_configured) eq_refl)
    as [fw [Hcalls [Hauth _]]].
  exists fw. split; [exact Hcalls | exact Hauth].
Defined.

(** * Further properties of [signInWithSRP] *)

Section SignInMore.

Variable recognize : string -> option Challenge.
Variable relevant : Challenge -> string -> bool.
Variable getSignInResultFromError : string -> option AuthSignInResult.
Variable assertServiceError_check : AuthError -> option AuthError.
Variable delivery : Delivery.

Local Abbreviation signIn' :=
  (signInWithSRP recognize relevant getSignInResultFromError
                 assertServiceError_check delivery).
Local Abbreviation run_call' :=
  (run_call recognize relevant getSignInResultFromError
            assertServiceError_check delivery).
Local Abbreviation run_calls' :=
  (run_calls recognize relevant getSignInResultFromError
             assertServiceError_check delivery).
Local Abbreviation valid_run :=
  (signIn_valid_run recognize relevant getSignInResultFromError
                    assertServiceError_check delivery).


(** X2. When [assertServiceError] refuses the error of the remote flow,
    the caller gets the error that the assertion throws; the store has
    been cleaned, and the classifier is not consulted, even if it has a
    result for the name of the original error. *)
Theorem signIn_refused_error_is_not_classified :
  forall config remote (r : SignInRequest) (w : World) e e',
    truthy (req_username r) = true ->
    truthy (req_password r) = true ->
    remote (req_username r) (req_password r)
           (resolve_clientMetaData config r) = Throws e ->
    assertServiceError_check e = Some e' ->
    signIn' config remote r w =
      (Throws e',
       {| store := None;
          log := log w ++
                 [EvRemote (req_username r) (req_password r)
                           (resolve_clientMetaData config r);
                  EvClean] |}).
Proof.
  intros config remote r w e e' Hu Hp Hr Hc.
  rewrite (valid_run config remote r w Hu Hp). cbn zeta.
  rewrite Hr, Hc. now rewrite <- app_assoc.
Qed.


Lemma run_calls_app :
  forall (cs ds : list Call) (w : World),
    run_calls' (cs ++ ds) w = run_calls' ds (run_calls' cs w).
Proof.
  induction cs as [| c cs IH]; intros ds w; cbn; [reflexivity|].
  apply IH.
Qed.

(** X4. After any run of calls, the store is what the last call that
    passed validation leaves on a fresh client; calls that fail
    validation, wherever they come in the run, do not count. *)
Theorem store_reflects_last_validated_call :
  forall (cs : list Call) (c : Call) (w : World),
    (passes_validation c = true ->
       store (run_calls' (cs ++ [c]) w) =
       store (snd (run_call' c {| store := None; log := [] |})))
    /\ (passes_validation c = false ->
          run_calls' (cs ++ [c]) w = run_calls' cs w).
Proof.
  intros cs c w. rewrite run_calls_app. cbn. unfold passes_validation.
  split; intros H.
  - apply andb_prop in H. destruct H as [Hu Hp]. unfold run_call.
    now rewrite !(signIn_store_after recognize relevant
                    getSignInResultFromError assertServiceError_check delivery
                    _ _ _ _ Hu Hp).
  - unfold run_call. now apply signIn_invalid_run.
Qed.

Lemma run_call_remote_calls :
  forall (c : Call) (w : World),
    length (remote_calls (log (snd (run_call' c w)))) =
    length (remote_calls (log w)) + (if passes_validation c then 1 else 0).
Proof.
  intros c w. unfold run_call, passes_validation.
  destruct (truthy (req_username (call_request c))) eqn:Hu;
    [destruct (truthy (req_password (call_request c))) eqn:Hp|]; cbn [andb].
  - rewrite (valid_run _ _ _ w Hu Hp). cbn zeta. unfold remote_calls.
    destruct (call_remote c _ _ _) as [resp | e].
    + destruct (AuthenticationResult resp).
      * cbn. now rewrite filter_app, length_app.
      * destruct (getSignInResult _ _ _ _) as [res | e]; cbn.
        -- now rewrite filter_app, length_app.
        -- destruct delivery; cbn;
             [|now rewrite filter_app, length_app].
           destruct (assertServiceError_check e); cbn;
             rewrite <- ?app_assoc, filter_app, length_app; reflexivity.
    + destruct (assertServiceError_check e); cbn;
        rewrite <- ?app_assoc, filter_app, length_app; reflexivity.
  - rewrite signIn_invalid_run by (now rewrite Hu, Hp). now rewrite Nat.add_0_r.
  - rewrite signIn_invalid_run by (now rewrite Hu). now rewrite Nat.add_0_r.
Qed.

(** X5. A run of calls contacts the remote flow once for each call that
    passes validation and never otherwise: nothing is retried, whatever
    the remote flow answers. *)
Theorem run_makes_one_remote_call_per_validated_call :
  forall (cs : list Call) (w : World),
    length (remote_calls (log (run_calls' cs w))) =
    length (remote_calls (log w)) + length (filter passes_validation cs).
Proof.
  induction cs as [| c cs IH]; intros w; cbn.
  - now rewrite Nat.add_0_r.
  - rewrite IH, run_call_remote_calls.
    destruct (passes_validation c); cbn.
    + now rewrite <- Nat.add_assoc.
    + now rewrite Nat.add_0_r.
Qed.

(** X6. Where a resolved call gets its result from: tokens, and then it
    is the done result with an empty store; or the dispatcher's answer to
    the challenge of a tokenless response, and then that session is
    stored; or the classifier's result for an error thrown on the way,
    once [assertServiceError] has let it through, with an empty store. *)
Theorem signIn_result_provenance :
  forall config remote (r : SignInRequest) (w : World) res,
    fst (signIn' config remote r w) = Returns res ->
    let w' := snd (signIn' config remote r w) in
    let md := resolve_clientMetaData config r in
    (exists resp tokens,
        remote (req_username r) (req_password r) md = Returns resp
        /\ AuthenticationResult resp = Some tokens
        /\ res = done_result /\ store w' = None)
    \/ (exists resp,
          remote (req_username r) (req_password r) md = Returns resp
          /\ AuthenticationResult resp = None
          /\ getSignInResult recognize relevant (ChallengeName resp)
               (ChallengeParams resp) = Returns res
          /\ store w' =
               Some {| signInSession := Session resp;
                       username := req_username r;
                       challengeName := ChallengeName resp |})
    \/ (exists e,
          (remote (req_username r) (req_password r) md = Throws e
           \/ exists resp,
                remote (req_username r) (req_password r) md = Returns resp
                /\ AuthenticationResult resp = None
                /\ getSignInResult recognize relevant (ChallengeName resp)
                     (ChallengeParams resp) = Throws e)
          /\ assertServiceError_check e = None
          /\ getSignInResultFromError (error_name e) = Some res
          /\ store w' = None).
Proof.
  intros config remote r w res.
  destruct (truthy (req_username r)) eqn:Hu;
    [destruct (truthy (req_password r)) eqn:Hp|].
  - rewrite (valid_run config remote r w Hu Hp). cbn zeta.
    destruct (remote _ _ _) as [resp | e].
    + destruct (AuthenticationResult resp) as [tokens |] eqn:Ht.
      * intros [= <-]. left. now exists resp, tokens.
      * destruct (getSignInResult _ _ _ _) as [res' | e] eqn:Hg.
        -- intros [= <-]. right; left. now exists resp.
        -- destruct delivery; [|discriminate].
           destruct (assertServiceError_check e) eqn:Hc; [discriminate|].
           destruct (getSignInResultFromError _) eqn:Hcl; [|discriminate].
           intros [= <-]. right; right. exists e.
           repeat split; auto. right. now exists resp.
    + destruct (assertServiceError_check e) eqn:Hc; [discriminate|].
      destruct (getSignInResultFromError _) eqn:Hcl; [|discriminate].
      intros [= <-]. right; right. exists e. repeat split; auto.
  - unfold signInWithSRP, assertValidationError, bind, throw, ret.
    rewrite Hu, Hp. discriminate.
  - unfold signInWithSRP, assertValidationError, bind, throw.
    rewrite Hu. discriminate.
Qed.

End SignInMore.

(** * Further properties of [createAuthRouteHandlersFactory] *)

Section FactoryMore.

Import Nextjs.

Variable isValidOrigin : string -> bool.
Variable assertTokenProviderConfig : option CognitoConfig -> option FactoryError.
Variable assertOAuthConfig : option CognitoConfig -> option FactoryError.

(** X7. The factory is created exactly when the origin is a non-empty
    string that [isValidOrigin] accepts, both configuration assertions
    pass, and the configuration has an Auth section whose Cognito part has
    a [loginWith] object. What the handlers then work with is that origin,
    the client id, the [oauth] entry of [loginWith] (undefined when it is
    left out), and the given cookie options, or none when [runtimeOptions]
    or its [cookies] are left out. *)
Theorem factory_created_iff :
  forall (env_origin : option string)
         (input : CreateAuthRouteHandlersFactoryInput) (h : Handlers),
    createAuthRouteHandlersFactory isValidOrigin assertTokenProviderConfig
      assertOAuthConfig env_origin input = Created h
    <->
    exists s auth c lw,
      env_origin = Some s /\ s <> "" /\ isValidOrigin s = true
      /\ Auth (config input) = Some auth
      /\ Cognito auth = Some c
      /\ assertTokenProviderConfig (Some c) = None
      /\ assertOAuthConfig (Some c) = None
      /\ loginWith c = Some lw
      /\ h = {| h_userPoolClientId := userPoolClientId c;
                h_oAuthConfig := oauth lw;
                h_setCookieOptions :=
                  match runtimeOptions input with
                  | Some ro =>
                      match cookies ro with
                      | Some o => o
                      | None => []
                      end
                  | None => []
                  end;
                h_origin := s |}.
Proof.
  intros env_origin input h. unfold createAuthRouteHandlersFactory. split.
  - destruct env_origin as [s |]; cbn; [|discriminate].
    destruct (String.eqb_spec s ""); cbn; [discriminate|].
    destruct (isValidOrigin s) eqn:Hv; cbn; [|discriminate].
    destruct (Auth (config input)) as [auth |] eqn:Ha; cbn.
    + destruct (assertTokenProviderConfig (Cognito auth)) eqn:Ht;
        [discriminate|].
      destruct (assertOAuthConfig (Cognito auth)) eqn:Ho; [discriminate|].
      destruct (Cognito auth) as [c |] eqn:Hc; [|discriminate].
      destruct (loginWith c) as [lw |] eqn:Hl; [|discriminate].
      intros [= <-]. exists s, auth, c, lw.
      repeat split; auto.
      now destruct (runtimeOptions input).
    + destruct (assertTokenProviderConfig None); discriminate.
  - intros (s & auth & c & lw & -> & Hs & Hv & Ha & Hc & Ht & Ho & Hl & ->).
    cbn. destruct (String.eqb_spec s ""); [contradiction|]. cbn.
    rewrite Hv. cbn. rewrite Ha. cbn. rewrite Hc, Ht, Ho, Hl.
    now destruct (runtimeOptions input).
Qed.

(** X8. With an origin that passes, the first check of the configuration
    that fails decides the error: the one of [assertTokenProviderConfig]
    when it fails; a [TypeError] when it passes although there is no Auth
    section, before [assertOAuthConfig] is asked; and the one of
    [assertOAuthConfig] when there is an Auth section and the first
    assertion has passed. *)
Theorem factory_first_failed_check_wins :
  forall (s : string) (input : CreateAuthRouteHandlersFactoryInput),
    s <> "" ->
    isValidOrigin s = true ->
    let built :=
      createAuthRouteHandlersFactory isValidOrigin assertTokenProviderConfig
        assertOAuthConfig (Some s) input in
    (forall e,
       assertTokenProviderConfig (opt_chain (Auth (config input)) Cognito)
         = Some e ->
       built = Raised e)
    /\ (Auth (config input) = None ->
        assertTokenProviderConfig None = None ->
        built = Raised TypeError)
    /\ (forall auth e,
          Auth (config input) = Some auth ->
          assertTokenProviderConfig (Cognito auth) = None ->
          assertOAuthConfig (Cognito auth) = Some e ->
          built = Raised e).
Proof.
  intros s input Hs Hv built. subst built.
  unfold createAuthRouteHandlersFactory. cbn.
  destruct (String.eqb_spec s ""); [contradiction|]. cbn. rewrite Hv. cbn.
  split; [|split].
  - intros e He. now rewrite He.
  - intros Ha Ht. rewrite Ha. cbn. now rewrite Ht.
  - intros auth e Ha Ht He. rewrite Ha. cbn. now rewrite Ht, He.
Qed.

End FactoryMore.

(** * Further properties of [DefaultAmplify.configure] *)

Section ConfigureMore.

Import Singleton.

Variable RawConfig : Type.
Variable parseAmplifyConfig : RawConfig -> ResourcesConfig.

(** X9. Every call of [configure] calls [Amplify.configure] exactly
    once, with the parsed configuration. When the caller gives no
    [libraryOptions], options are forwarded only if the defaults are being
    installed. *)
Theorem configure_forwards_parsed_config_once :
  forall (raw : RawConfig) (libOpts : option LibraryOptions) (a : AmplifyState),
    let cfg := parseAmplifyConfig raw in
    let a' := configure parseAmplifyConfig raw libOpts a in
    exists fw,
      configure_calls a' = configure_calls a ++ [(cfg, fw)]
      /\ (libOpts = None -> fw <> None -> three_conditions cfg None a = true).
Proof.
  intros raw libOpts a cfg a'. subst cfg a'.
  unfold configure, three_conditions.
  destruct (Auth (parseAmplifyConfig raw)) as [authConfig |].
  - destruct (opt_chain libOpts lo_Auth) as [given |] eqn:Hgiven.
    + exists libOpts. split; [reflexivity|]. intros ->. discriminate.
    + destruct (lo_Auth (libraryOptions a)) as [prev |].
      * destruct libOpts as [lo |].
        -- destruct (ssr lo); eexists; (split; [reflexivity|discriminate]).
        -- exists None. split; [reflexivity|]. intros _ H. now elim H.
      * eexists. split; [reflexivity|]. intros ->. reflexivity.
  - exists libOpts. split; [reflexivity|]. intros -> H. now elim H.
Qed.

(** X10. What the caller passes is never lost: [ssr] and the other keys
    of [libraryOptions] reach [Amplify.configure] as given in every
    branch, and when the caller passes [Auth] the options are forwarded
    exactly as they are and nothing else is touched. *)
Theorem configure_keeps_caller_options :
  forall (raw : RawConfig) (lo : LibraryOptions) (a : AmplifyState),
    let cfg := parseAmplifyConfig raw in
    let a' := configure parseAmplifyConfig raw (Some lo) a in
    (exists fw,
       configure_calls a' = configure_calls a ++ [(cfg, Some fw)]
       /\ ssr fw = ssr lo
       /\ lo_rest fw = lo_rest lo)
    /\ (lo_Auth lo <> None -> a' = Amplify_configure cfg (Some lo) a).
Proof.
  intros raw lo a cfg a'. subst cfg a'.
  unfold configure. cbn [opt_chain].
  destruct (Auth (parseAmplifyConfig raw)) as [authConfig |].
  - destruct (lo_Auth lo) as [given |] eqn:Hgiven.
    + split; [now exists lo | reflexivity].
    + split; [|intros H; now elim H].
      destruct (lo_Auth (libraryOptions a)) as [prev |].
      * destruct (ssr lo) eqn:Hssr; eexists;
          (split; [reflexivity|]); cbn; auto.
      * eexists. split; [reflexivity|]. cbn. auto.
  - split; [now exists lo | reflexivity].
Qed.



End ConfigureMore.

(** * The further theorems at work *)


Lemma signIn_refused_error_is_not_classified_witness :
  Mock.getSignInResultFromError "PasswordResetRequired"
  = Some Mock.reset_password
  /\ fst (signInWithSRP Mock.recognize Mock.relevant
            Mock.getSignInResultFromError Mock.assertServiceError_check Mock.delivery
            Mock.config MockRuns.broken_remote
            (Mock.request "dave" "pw") Mock.fresh)
     = Throws (OtherError "Unknown").
Proof.
  split; [reflexivity|].
  rewrite (signIn_refused_error_is_not_classified
             Mock.recognize Mock.relevant Mock.getSignInResultFromError
             Mock.assertServiceError_check Mock.delivery Mock.config MockRuns.broken_remote
             (Mock.request "dave" "pw") Mock.fresh
             (e := OtherError "PasswordResetRequired")
             (e' := OtherError "Unknown")
             eq_refl eq_refl eq_refl eq_refl).
  reflexivity.
Defined.


Lemma store_reflects_last_validated_call_witness :
  passes_validation (Mock.call_of Mock.second_remote "erin" "pw2") = true
  /\ store (MockRuns.run_calls MockRuns.three_calls Mock.fresh)
     = store (snd (Mock.run (Mock.call_of Mock.second_remote "erin" "pw2")
                            Mock.fresh)).
Proof.
  split; [reflexivity|].
  exact (proj1 (store_reflects_last_validated_call
                  Mock.recognize Mock.relevant Mock.getSignInResultFromError
                  Mock.assertServiceError_check Mock.delivery
                  [Mock.call_of Mock.remote "bob" "pw";
                   Mock.call_of Mock.remote "" "pw"]
                  (Mock.call_of Mock.second_remote "erin" "pw2")
                  Mock.fresh) eq_refl).
Defined.

Lemma signIn_result_provenance_witness :
  fst (Mock.signIn (Mock.request "alice" "pw") Mock.fresh)
  = Returns done_result
  /\ store (snd (Mock.signIn (Mock.request "alice" "pw") Mock.fresh)) = None.
Proof.
  split; [reflexivity|].
  destruct (signIn_result_provenance
              Mock.recognize Mock.relevant Mock.getSignInResultFromError
              Mock.assertServiceError_check Mock.delivery Mock.config Mock.remote
              (Mock.request "alice" "pw") Mock.fresh
              (res := done_result) eq_refl)
    as [(resp & tokens & _ & _ & _ & Hstore)
       | [(resp & Hr & Ht & _) | (e & _ & _ & _ & Hstore)]].
  - exact Hstore.
  - cbn in Hr. injection Hr as <-. discriminate Ht.
  - exact Hstore.
Defined.

Lemma factory_created_iff_witness :
  Nextjs.mock_isValidOrigin "https://app.example.com" = true
  /\ Nextjs.createAuthRouteHandlersFactory Nextjs.mock_isValidOrigin
       Nextjs.mock_assert Nextjs.mock_assert
       (Some "https://app.example.com") Nextjs.mock_input
     = Nextjs.Created
         {| Nextjs.h_userPoolClientId := "client-1";
            Nextjs.h_oAuthConfig :=
              Some {| Nextjs.oauth_domain := "auth.example.com" |};
            Nextjs.h_setCookieOptions := [];
            Nextjs.h_origin := "https://app.example.com" |}.
Proof.
  split; [reflexivity|].
  apply (proj2 (factory_created_iff
                  Nextjs.mock_isValidOrigin Nextjs.mock_assert
                  Nextjs.mock_assert
                  (Some "https://app.example.com") Nextjs.mock_input _)).
  exists "https://app.example.com".
  exists {| Nextjs.Cognito := Some
              {| Nextjs.userPoolClientId := "client-1";
                 Nextjs.loginWith :=
                   Some {| Nextjs.oauth :=
                             Some {| Nextjs.oauth_domain := "auth.example.com" |} |} |} |}.
  exists {| Nextjs.userPoolClientId := "client-1";
            Nextjs.loginWith :=
              Some {| Nextjs.oauth :=
                        Some {| Nextjs.oauth_domain := "auth.example.com" |} |} |}.
  exists {| Nextjs.oauth := Some {| Nextjs.oauth_domain := "auth.example.com" |} |}.
  repeat split. discriminate.
Defined.

Lemma factory_first_failed_check_wins_witness :
  Nextjs.mock_assert None = Some (Nextjs.AssertionError "AuthTokenConfigException")
  /\ Nextjs.createAuthRouteHandlersFactory Nextjs.mock_isValidOrigin
       Nextjs.mock_assert Nextjs.mock_assert
       (Some "https://app.example.com")
       {| Nextjs.config := {| Nextjs.Auth := None |};
          Nextjs.runtimeOptions := None |}
     = Nextjs.Raised (Nextjs.AssertionError "AuthTokenConfigException").
Proof.
  split; [reflexivity|].
  refine (proj1 (factory_first_failed_check_wins
                   Nextjs.mock_isValidOrigin Nextjs.mock_assert
                   Nextjs.mock_assert
                   {| Nextjs.config := {| Nextjs.Auth := None |};
                      Nextjs.runtimeOptions := None |}
                   (s := "https://app.example.com") _ eq_refl)
                (Nextjs.AssertionError "AuthTokenConfigException") eq_refl).
  discriminate.
Defined.

Lemma configure_forwards_parsed_config_once_witness :
  exists fw,
    Singleton.configure_calls
      (Singleton.configure Singleton.parse_id Singleton.auth_config None
         Singleton.configured_before)
    = [(Singleton.auth_config, fw)].
Proof.
  destruct (configure_forwards_parsed_config_once
              Singleton.parse_id Singleton.auth_config None
              Singleton.configured_before) as [fw [Hcalls _]].
  exists fw. exact Hcalls.
Defined.

Lemma configure_keeps_caller_options_witness :
  exists fw,
    Singleton.configure_calls
      (Singleton.configure Singleton.parse_id Singleton.auth_config
         (Some Singleton.only_ssr) Singleton.configured_before)
    = [(Singleton.auth_config, Some fw)]
    /\ Singleton.ssr fw = Some true.
Proof.
  destruct (proj1 (configure_keeps_caller_options
                     Singleton.parse_id Singleton.auth_config
                     Singleton.only_ssr Singleton.configured_before))
    as [fw [Hcalls [Hssr _]]].
  exists fw. split; [exact Hcalls | exact Hssr].
Defined.


